(** * excel_report_maker: the report generator and its layout engine

    A shallow embedding of [src/excel_report_maker/__init__.py]
    (class [ExcelReportGenerator]) together with the part of the
    spreadsheet primitives it calls (workbook, worksheet, cell, table,
    image), followed by the properties of the layout engine.

    Conventions of the embedding.
    - Python [int] is [Z]; [str] is [string]; [str(n)] for an integer is
      stdpp's decimal [pretty].
    - A worksheet is a value: a routine that mutates the sheet it is given
      returns the updated sheet.
    - Code that prints, raises, or updates the generator runs in the monad
      [M]: a state transformer over [State] whose result is either a value
      or a raised exception; the state survives a raise.
    - A float held by a cell is kept by the two things the program observes
      of it, its [str] and its truth value.
    - Exceptions are instances of Python's [Exception]: what
      [except Exception] catches.

    What is left out of the spreadsheet primitives: the grid has no last
    row; cell strings are taken as legal and are stored as given; strings
    are byte strings, so [len] counts bytes; column labels of a table are
    strings; a provider is a function of the table and its title and has no
    other effect; saving records the document under the path and does not
    fail; the warning the library issues for a title longer than 31
    characters goes to another stream than [print] and is not kept. *)

From Stdlib Require Import ZArith List String Ascii Lia Bool.
From stdpp Require Import base gmap strings list fin_maps pretty.
Import ListNotations.

Local Open Scope string_scope.
Local Open Scope list_scope.
Local Open Scope Z_scope.

(** ** Python values and exceptions *)

Record PyFloat := { float_repr : string; float_is_zero : bool }.

Inductive Value :=
| VNone
| VBool (b : bool)
| VInt (z : Z)
| VFloat (f : PyFloat)
| VStr (s : string).

(** [bool(v)] *)
Definition truthy (v : Value) : bool :=
  match v with
  | VNone => false
  | VBool b => b
  | VInt z => negb (z =? 0)
  | VFloat f => negb (float_is_zero f)
  | VStr s => negb (String.eqb s "")
  end.

(** [str(v)] *)
Definition py_str (v : Value) : string :=
  match v with
  | VNone => "None"
  | VBool true => "True"
  | VBool false => "False"
  | VInt z => pretty z
  | VFloat f => float_repr f
  | VStr s => s
  end.

(** [len(s)] *)
Definition len (s : string) : Z := Z.of_nat (String.length s).

Inductive exn :=
| ImportError (msg : string)
| ValueError (msg : string)
| Exception (msg : string).

(** [str(e)] *)
Definition exn_str (e : exn) : string :=
  match e with
  | ImportError m | ValueError m | Exception m => m
  end.

Inductive Outcome (A : Type) :=
| Ok (a : A)
| Raise (e : exn).
Arguments Ok {A} a.
Arguments Raise {A} e.

(** [needle in haystack] on strings *)
Fixpoint contains (needle haystack : string) : bool :=
  String.prefix needle haystack ||
  match haystack with
  | EmptyString => false
  | String _ rest => contains needle rest
  end.

(** [range(a, b)] *)
Definition range (a b : Z) : list Z := seqZ a (b - a).

(** [max(l, default=d)] *)
Definition py_max (d : Z) (l : list Z) : Z :=
  match l with
  | [] => d
  | x :: l' => foldr Z.max x l'
  end.

(** [enumerate(l, start)] *)
Fixpoint enumerate {A} (l : list A) (start : Z) : list (Z * A) :=
  match l with
  | [] => []
  | x :: l' => (start, x) :: enumerate l' (start + 1)
  end.

(** ** openpyxl.utils.get_column_letter

    Columns 1..18278 are A..ZZZ; anything else raises [ValueError]. The
    letters come out of the repeated [divmod] by 26 last letter first and
    are reversed at the end. The loop runs while the index is positive; the
    index drops with every round, so [col_idx] rounds are always enough. *)

Definition MAX_COLUMN : Z := 18278.

Fixpoint column_letters (fuel : nat) (col_idx : Z) (letters : list ascii)
  : list ascii :=
  match fuel with
  | O => letters
  | S fuel' =>
      if 0 <? col_idx then
        let q := col_idx / 26 in
        let remainder := col_idx mod 26 in
        let '(q, remainder) :=
          if remainder =? 0 then (q - 1, 26) else (q, remainder) in
        column_letters fuel' q
          (letters ++ [ascii_of_nat (Z.to_nat (remainder + 64))])
      else letters
  end.

Definition column_letter (col_idx : Z) : string :=
  string_of_list_ascii (rev (column_letters (Z.to_nat col_idx) col_idx [])).

Definition get_column_letter (col_idx : Z) : Outcome string :=
  if (1 <=? col_idx) && (col_idx <=? MAX_COLUMN) then
    Ok (column_letter col_idx)
  else Raise (ValueError ("Invalid column index " +:+ pretty col_idx)).

(** ** Worksheet cells, tables and images *)

(** [Font(bold=..., size=...)]; [sz] is the size. *)
Record Font := { bold : bool; sz : Z }.

Record Cell := {
  value : Value;
  number_format : string;
  font : Font
}.

Definition default_font : Font := {| bold := false; sz := 11 |}.

Definition blank_cell : Cell :=
  {| value := VNone; number_format := "General"; font := default_font |}.

Record TableStyleInfo := {
  style_name : string;
  showFirstColumn : bool;
  showLastColumn : bool;
  showRowStripes : bool;
  showColumnStripes : bool
}.

Record Table := {
  displayName : string;
  ref : string;
  tableStyleInfo : option TableStyleInfo
}.

Inductive ImageSource :=
| FromBuffer (png : string)
| FromPath (path : string).

Record Image := {
  img_source : ImageSource;
  img_width : Z;
  img_height : Z;
  anchor : string
}.

(** The sheet keeps its cells in a dictionary keyed by (row, column), the
    index of the last row written, its tables and images in the order they
    were added, and the widths set through [column_dimensions], keyed by
    column letter. *)
Record Worksheet := {
  title : string;
  cells : gmap (Z * Z) Cell;
  current_row : Z;
  tables : list Table;
  images : list Image;
  column_dimensions : gmap string Z
}.

Definition new_worksheet (t : string) : Worksheet :=
  {| title := t; cells := ∅; current_row := 0; tables := []; images := [];
     column_dimensions := ∅ |}.

Definition set_cells (f : gmap (Z * Z) Cell -> gmap (Z * Z) Cell)
  (ws : Worksheet) : Worksheet :=
  {| title := title ws; cells := f (cells ws); current_row := current_row ws;
     tables := tables ws; images := images ws;
     column_dimensions := column_dimensions ws |}.

Definition set_current_row (r : Z) (ws : Worksheet) : Worksheet :=
  {| title := title ws; cells := cells ws; current_row := r;
     tables := tables ws; images := images ws;
     column_dimensions := column_dimensions ws |}.

(** What reading position (row, column) gives: an absent cell reads as a
    blank one. *)
Definition get_cell (ws : Worksheet) (row column : Z) : Cell :=
  default blank_cell (cells ws !! (row, column)).

(** [ws.cell(row, column, value)] followed by an update [attr] of the cell
    object it returns ([.font = ...], [.number_format = ...]). The cell is
    created when absent, the sheet's last row moves down to [row] if it was
    above, and a [value] of [None] leaves the stored value alone. *)
Definition update_cell (ws : Worksheet) (row column : Z) (v : Value)
  (attr : Cell -> Cell) : Worksheet :=
  let c := get_cell ws row column in
  let c := match v with
           | VNone => c
           | _ => {| value := v; number_format := number_format c;
                     font := font c |}
           end in
  set_current_row (Z.max row (current_row ws))
    (set_cells (insert (row, column) (attr c)) ws).

Definition cell (ws : Worksheet) (row column : Z) (v : Value)
  (attr : Cell -> Cell) : Outcome Worksheet :=
  if (row <? 1) || (column <? 1) then
    Raise (ValueError "Row or column values must be at least 1")
  else Ok (update_cell ws row column v attr).

Definition set_font (f : Font) (c : Cell) : Cell :=
  {| value := value c; number_format := number_format c; font := f |}.

Definition set_number_format (fmt : string) (c : Cell) : Cell :=
  {| value := value c; number_format := fmt; font := font c |}.

(** [ws.append(row)]: fresh cells in the row below the last one written,
    from column 1 on. *)
Fixpoint write_row (row_idx col_idx : Z) (row : list Value)
  (m : gmap (Z * Z) Cell) : gmap (Z * Z) Cell :=
  match row with
  | [] => m
  | content :: rest =>
      write_row row_idx (col_idx + 1) rest
        (<[(row_idx, col_idx) :=
             {| value := content; number_format := "General";
                font := default_font |}]> m)
  end.

Definition append (ws : Worksheet) (row : list Value) : Worksheet :=
  let row_idx := current_row ws + 1 in
  set_current_row row_idx (set_cells (write_row row_idx 1 row) ws).

Definition add_table (ws : Worksheet) (t : Table) : Worksheet :=
  {| title := title ws; cells := cells ws; current_row := current_row ws;
     tables := tables ws ++ [t]; images := images ws;
     column_dimensions := column_dimensions ws |}.

Definition add_image (ws : Worksheet) (img : Image) : Worksheet :=
  {| title := title ws; cells := cells ws; current_row := current_row ws;
     tables := tables ws; images := images ws ++ [img];
     column_dimensions := column_dimensions ws |}.

(** [ws.column_dimensions[letter].width = w] *)
Definition set_width (ws : Worksheet) (letter : string) (w : Z) : Worksheet :=
  {| title := title ws; cells := cells ws; current_row := current_row ws;
     tables := tables ws; images := images ws;
     column_dimensions := <[letter := w]> (column_dimensions ws) |}.

(** [ws.max_row] and [ws.max_column]: 1 on a sheet without cells. *)
Definition max_row (ws : Worksheet) : Z :=
  py_max 1 ((λ kv, kv.1.1) <$> map_to_list (cells ws)).

Definition max_column (ws : Worksheet) : Z :=
  py_max 1 ((λ kv, kv.1.2) <$> map_to_list (cells ws)).

(** [ws.columns]: nothing on a sheet never written to; otherwise, for each
    column 1..max_column, its cells in rows 1..max_row. The iteration reads
    the gaps as blank cells; a blank cell and an absent one read the same
    through [get_cell], so the grid is left as it is. *)
Definition columns_of (ws : Worksheet) : list (Z * list Cell) :=
  if current_row ws =? 0 then []
  else
    (λ c, (c, (λ r, get_cell ws r c) <$> range 1 (max_row ws + 1)))
      <$> range 1 (max_column ws + 1).

(** ** Sheet titles (openpyxl.workbook.child)

    A title must not contain one of the characters [\ * ? : / [ ]]. A title
    that matches an existing one up to case is renamed: the names are joined
    with commas, the matches of the title followed by digits are collected,
    and the title gets the highest number found plus one. *)

Definition invalid_title_char (a : ascii) : bool :=
  existsb (Ascii.eqb a) ["\"; "*"; "?"; ":"; "/"; "["; "]"]%char.

Fixpoint find_invalid_char (s : string) : option ascii :=
  match s with
  | EmptyString => None
  | String a rest =>
      if invalid_title_char a then Some a else find_invalid_char rest
  end.

Definition lower_ascii (a : ascii) : ascii :=
  let n := nat_of_ascii a in
  if (65 <=? n)%nat && (n <=? 90)%nat then ascii_of_nat (n + 32) else a.

Fixpoint lower (s : string) : string :=
  match s with
  | EmptyString => EmptyString
  | String a rest => String (lower_ascii a) (lower rest)
  end.

Definition is_digit (a : ascii) : bool :=
  let n := nat_of_ascii a in (48 <=? n)%nat && (n <=? 57)%nat.

Fixpoint strip_prefix_ci (v s : string) : option string :=
  match v, s with
  | EmptyString, _ => Some s
  | String a v', String b s' =>
      if Ascii.eqb (lower_ascii a) (lower_ascii b)
      then strip_prefix_ci v' s' else None
  | String _ _, EmptyString => None
  end.

Fixpoint span_digits (s : string) : string * string :=
  match s with
  | EmptyString => (EmptyString, EmptyString)
  | String a rest =>
      if is_digit a then
        let '(d, r) := span_digits rest in (String a d, r)
      else (EmptyString, s)
  end.

Fixpoint findall_counts (fuel : nat) (v joined : string) : list string :=
  match fuel with
  | O => []
  | S fuel' =>
      match strip_prefix_ci v joined with
      | Some rest =>
          let '(count, rest) := span_digits rest in
          let rest := match rest with
                      | String ","%char r => r
                      | _ => rest
                      end in
          count :: findall_counts fuel' v rest
      | None =>
          match joined with
          | EmptyString => []
          | String _ rest => findall_counts fuel' v rest
          end
      end
  end.

(** [int(s)] on a string of digits *)
Definition int_of_digits (s : string) : Z :=
  fold_left (λ acc a, 10 * acc + (Z.of_nat (nat_of_ascii a) - 48))
    (list_ascii_of_string s) 0.

Fixpoint join_comma (names : list string) : string :=
  match names with
  | [] => ""
  | [n] => n
  | n :: rest => n +:+ "," +:+ join_comma rest
  end.

Definition avoid_duplicate_name (names : list string) (v : string) : string :=
  if existsb (λ n, String.eqb (lower n) (lower v)) names then
    let joined := join_comma names in
    let matches := findall_counts (S (String.length joined)) v joined in
    match matches with
    | [] => v
    | _ =>
        let counts :=
          int_of_digits <$> filter (λ idx, idx ≠ "") matches in
        let highest := py_max 0 counts in
        v +:+ pretty (highest + 1)
    end
  else v.

(** The title a new sheet gets, or the [ValueError] of the title setter. An
    empty title stands for the default title. *)
Definition new_title (names : list string) (t : string) : Outcome string :=
  let t := if String.eqb t "" then "Sheet" else t in
  match find_invalid_char t with
  | Some a =>
      Raise (ValueError ("Invalid character " +:+ String a ""
                         +:+ " found in sheet title"))
  | None => Ok (avoid_duplicate_name names t)
  end.

(** ** Tables of data, figures and the runtime *)

(** A [DataFrame] with single-level string column labels. *)
Record DataFrame := {
  columns : list string;
  data : list (list Value)
}.

(** [df.shape[1]] *)
Definition shape1 (df : DataFrame) : Z := Z.of_nat (length (columns df)).

(** [dataframe_to_rows(df, index=False, header=True)]: the header row, then
    the data rows. *)
Definition dataframe_to_rows (df : DataFrame) : list (list Value) :=
  (VStr <$> columns df) :: data df.

(** A figure is what [fig.savefig(buffer, ...)] does with it: it fills the
    buffer or raises. *)
Record Figure := { savefig : Outcome string }.

(** What an image callback returns: one object (a figure or [None]) or a
    list of them. *)
Inductive Figures :=
| OneFigure (fig : option Figure)
| FigureList (figs : list (option Figure)).

Definition Provider : Type := DataFrame -> string -> Outcome Figures.

(** What the image routines ask of the runtime: whether the imaging
    library behind [openpyxl.drawing.image.Image] is there, whether a path
    exists, and whether an image source can be decoded. *)
Record Runtime := {
  image_support : bool;
  path_exists : string -> bool;
  decodable : ImageSource -> bool
}.

(** [Image(src)] with [img.width], [img.height] and [img.anchor] set *)
Definition make_image (rt : Runtime) (src : ImageSource) : Outcome ImageSource :=
  if image_support rt then
    if decodable rt src then Ok src
    else Raise (Exception "cannot identify image file")
  else Raise (ImportError "You must install Pillow to fetch image objects").

(** [start_col]: a column letter or a 1-based column index. *)
Inductive Col :=
| ColStr (s : string)
| ColInt (k : Z).

(** ** The generator's state and the monad of its methods *)

Record State := {
  results : list (string * list (string * DataFrame));
  intro_text : list string;
  wb : list Worksheet;
  global_table_counter : Z;
  stdout : list string;
  files : list (string * list Worksheet)
}.

Definition M (A : Type) : Type := State -> Outcome A * State.

Definition ret {A} (a : A) : M A := λ st, (Ok a, st).

Definition bind {A B} (m : M A) (k : A -> M B) : M B :=
  λ st, match m st with
        | (Ok a, st') => k a st'
        | (Raise e, st') => (Raise e, st')
        end.

Definition lift {A} (o : Outcome A) : M A := λ st, (o, st).

(** [try: m except Exception as e: h e] *)
Definition try_except {A} (m : M A) (h : exn -> M A) : M A :=
  λ st, match m st with
        | (Raise e, st') => h e st'
        | r => r
        end.

(** [try: m except ImportError: h] *)
Definition try_except_ImportError {A} (m : M A) (h : M A) : M A :=
  λ st, match m st with
        | (Raise (ImportError _), st') => h st'
        | r => r
        end.

Declare Scope py_scope.
Delimit Scope py_scope with py.
Notation "'let!' x ':=' m 'in' k" := (bind m (λ x, k))
  (at level 10, x name, m at level 200, k at level 200) : py_scope.
Notation "'let!' ' pat ':=' m 'in' k" :=
  (bind m (λ x, match x with pat => k end))
  (at level 10, pat pattern, m at level 200, k at level 200) : py_scope.
Notation "'do!' m 'in' k" := (bind m (λ _, k))
  (at level 10, m at level 200, k at level 200) : py_scope.
Local Open Scope py_scope.

(** [for x in xs: acc = body(acc, x)] *)
Fixpoint for_each {A S} (xs : list A) (body : S -> A -> M S) (acc : S) : M S :=
  match xs with
  | [] => ret acc
  | x :: xs' => let! acc' := body acc x in for_each xs' body acc'
  end.

(** A [for] loop inside a [try]: when the body raises, the loop stops and
    the variables it updates keep the values they had reached. The result is
    these values and the exception, if there was one. *)
Fixpoint for_each_try {A S} (xs : list A) (body : S -> A -> M S) (acc : S)
  : M (S * option exn) :=
  match xs with
  | [] => ret (acc, None)
  | x :: xs' =>
      λ st, match body acc x st with
            | (Ok acc', st') => for_each_try xs' body acc' st'
            | (Raise e, st') => (Ok (acc, Some e), st')
            end
  end.

Definition print (line : string) : M unit :=
  λ st, (Ok tt,
         {| results := results st; intro_text := intro_text st; wb := wb st;
            global_table_counter := global_table_counter st;
            stdout := stdout st ++ [line]; files := files st |}).

Definition get {A} (f : State -> A) : M A := λ st, (Ok (f st), st).

Definition set_wb (w : list Worksheet) : M unit :=
  λ st, (Ok tt,
         {| results := results st; intro_text := intro_text st; wb := w;
            global_table_counter := global_table_counter st;
            stdout := stdout st; files := files st |}).

Definition set_global_table_counter (c : Z) : M unit :=
  λ st, (Ok tt,
         {| results := results st; intro_text := intro_text st; wb := wb st;
            global_table_counter := c;
            stdout := stdout st; files := files st |}).

(** [wb.save(path)]: the document as it stands is what is written. *)
Definition save (path : string) : M unit :=
  λ st, (Ok tt,
         {| results := results st; intro_text := intro_text st; wb := wb st;
            global_table_counter := global_table_counter st;
            stdout := stdout st; files := files st ++ [(path, wb st)] |}).

(** ** The workbook *)

Definition sheetnames (w : list Worksheet) : list string := title <$> w.

(** [Workbook()] comes with one sheet, titled "Sheet". *)
Definition Workbook : list Worksheet := [new_worksheet "Sheet"].

(** [del wb[name]] *)
Fixpoint del_sheet (name : string) (w : list Worksheet) : list Worksheet :=
  match w with
  | [] => []
  | ws :: rest =>
      if String.eqb (title ws) name then rest else ws :: del_sheet name rest
  end.

(** [wb.create_sheet(title, index)]: the new sheet goes to position [index],
    or to the end. The result is the sheet and the position it is at. *)
Definition create_sheet (t : string) (index : option nat)
  : M (nat * Worksheet) :=
  let! w := get wb in
  let! t' := lift (new_title (sheetnames w) t) in
  let ws := new_worksheet t' in
  let pos := match index with
             | Some i => Nat.min i (length w)
             | None => length w
             end in
  do! set_wb (take pos w ++ ws :: drop pos w) in
  ret (pos, ws).

(** The sheet object at position [pos] has become [ws]. *)
Definition store (pos : nat) (ws : Worksheet) : M unit :=
  let! w := get wb in
  set_wb (<[pos := ws]> w).

(** ** class ExcelReportGenerator *)

(** [ExcelReportGenerator(results, intro_text)], in a world that has
    printed [out] and holds the files [fs]. *)
Definition __init__ (results : list (string * list (string * DataFrame)))
  (intro_text : list string) (out : list string)
  (fs : list (string * list Worksheet)) : State :=
  let wb := Workbook in
  let wb := if bool_decide ("Sheet" ∈ sheetnames wb)
            then del_sheet "Sheet" wb else wb in
  {| results := results; intro_text := intro_text; wb := wb;
     global_table_counter := 1; stdout := out; files := fs |}.

Definition create_introduction_sheet : M unit :=
  let! '(pos, ws) := create_sheet "Introduction" (Some 0%nat) in
  let ws := append ws [VStr "Introduction"] in
  let! ws := lift (cell ws 1 1 VNone (set_font {| bold := true; sz := 14 |})) in
  let! intro_text := get intro_text in
  let ws := foldl (λ ws line, append ws [VStr line]) ws intro_text in
  let ws := set_width ws "A" 100 in
  store pos ws.

Definition TableStyleMedium9 : TableStyleInfo :=
  {| style_name := "TableStyleMedium9"; showFirstColumn := false;
     showLastColumn := false; showRowStripes := true;
     showColumnStripes := false |}.

(** The result is the row after the table and the sheet as written. *)
Definition append_df_as_table (ws : Worksheet) (df : DataFrame)
  (table_title : string) (start_row : Z) : M (Z * Worksheet) :=
  let! ws := lift (cell ws start_row 1 (VStr table_title)
                     (set_font {| bold := true; sz := 12 |})) in
  let start_row := start_row + 1 in
  let initial_data_row := start_row in
  let rows := dataframe_to_rows df in
  let ws := foldl append ws rows in
  let i := Z.of_nat (length rows) - 1 in
  let rows_appended := i + 1 in
  let end_row := start_row + rows_appended - 1 in
  let start_col := 1 in
  let end_col := shape1 df in
  let! first_letter := lift (get_column_letter start_col) in
  let! last_letter := lift (get_column_letter end_col) in
  let table_ref := first_letter +:+ pretty initial_data_row +:+ ":"
                   +:+ last_letter +:+ pretty end_row in
  let! counter := get global_table_counter in
  let table := {| displayName := "Table" +:+ pretty counter;
                  ref := table_ref; tableStyleInfo := None |} in
  do! set_global_table_counter (counter + 1) in
  let style := TableStyleMedium9 in
  let table := {| displayName := displayName table; ref := ref table;
                  tableStyleInfo := Some style |} in
  let ws := add_table ws table in
  let rate_cols := filter (λ col, contains "Rate" col = true) (columns df) in
  let! ws :=
    for_each (enumerate (columns df) 1)
      (λ ws '(col_idx, col_name),
         if bool_decide (col_name ∈ rate_cols) then
           for_each (range (initial_data_row + 1) (end_row + 1))
             (λ ws row_idx,
                lift (cell ws row_idx col_idx VNone (set_number_format "0%")))
             ws
         else ret ws)
      ws in
  ret (end_row + 2, ws).

(** [int(height / 15) + 2] *)
Definition rows_occupied (height : Z) : Z := Z.quot height 15 + 2.

Definition add_image_from_figure (rt : Runtime) (ws : Worksheet)
  (fig : Figure) (start_row : Z) (start_col : Col) (width height : Z)
  : M (Z * Worksheet) :=
  try_except_ImportError
    (let! img_buffer := lift (savefig fig) in
     let! img := lift (make_image rt (FromBuffer img_buffer)) in
     let! anchor_cell :=
       match start_col with
       | ColStr s => ret (s +:+ pretty start_row)
       | ColInt k =>
           let! letter := lift (get_column_letter k) in
           ret (letter +:+ pretty start_row)
       end in
     let ws := add_image ws {| img_source := img; img_width := width;
                               img_height := height;
                               anchor := anchor_cell |} in
     ret (start_row + rows_occupied height, ws))
    (do! print "Warning: Image embedding requires matplotlib. Skipping image." in
     ret (start_row + 1, ws)).

Definition add_image_from_file (rt : Runtime) (ws : Worksheet)
  (image_path : string) (start_row : Z) (start_col : Col) (width height : Z)
  : M (Z * Worksheet) :=
  try_except_ImportError
    (if negb (path_exists rt image_path) then
       do! print ("Warning: Image file not found: " +:+ image_path) in
       ret (start_row + 1, ws)
     else
       let! img := lift (make_image rt (FromPath image_path)) in
       let! anchor_cell :=
         match start_col with
         | ColStr s => ret (s +:+ pretty start_row)
         | ColInt k =>
             let! letter := lift (get_column_letter k) in
             ret (letter +:+ pretty start_row)
         end in
       let ws := add_image ws {| img_source := img; img_width := width;
                                 img_height := height;
                                 anchor := anchor_cell |} in
       ret (start_row + rows_occupied height, ws))
    (do! print "Warning: Image embedding not available. Skipping image." in
     ret (start_row + 1, ws)).

(** [max((len(str(cell.value)) if cell.value else 0 for cell in col),
    default=0)] *)
Definition max_length (col : list Cell) : Z :=
  py_max 0 ((λ c, if truthy (value c) then len (py_str (value c)) else 0)
              <$> col).

(** The loop that ends both sheet builders: every column of the sheet gets
    the width [adjusted_width max_length]. *)
Definition set_widths (adjusted_width : Z -> Z) (ws : Worksheet)
  : M Worksheet :=
  for_each (columns_of ws)
    (λ ws' '(column, col),
       let max_length := max_length col in
       let! letter := lift (get_column_letter column) in
       ret (set_width ws' letter (adjusted_width max_length)))
    ws.

Definition create_results_sheets : M unit :=
  let! results := get results in
  for_each results
    (λ _ '(sheet_name, queries_dict),
       let! '(pos, ws) := create_sheet sheet_name None in
       let current_row := 1 in
       let! '(current_row, ws) :=
         for_each queries_dict
           (λ '(current_row, ws) '(table_title, df),
              append_df_as_table ws df table_title current_row)
           (current_row, ws) in
       let! ws := set_widths (λ max_length, max_length + 2) ws in
       store pos ws)
    tt.

(** [if d:] for an optional dictionary: neither [None] nor empty. *)
Definition given {V} (d : option (gmap string V)) : bool :=
  match d with
  | Some m => negb (Nat.eqb (size m) 0)
  | None => false
  end.

(** [name in d], under the guard [d and ...] *)
Definition registered {V} (d : option (gmap string V)) (name : string)
  : option V :=
  if given d then d ≫= (λ m, m !! name) else None.

Definition create_results_sheets_with_images (rt : Runtime)
  (image_functions : option (gmap string Provider)) : M unit :=
  let! results := get results in
  for_each results
    (λ _ '(sheet_name, queries_dict),
       let! '(pos, ws) := create_sheet sheet_name None in
       let current_row := 1 in
       let! '(current_row, ws) :=
         for_each queries_dict
           (λ '(current_row, ws) '(table_title, df),
              let! '(current_row, ws) :=
                append_df_as_table ws df table_title current_row in
              match registered image_functions sheet_name with
              | Some image_func =>
                  let! '((current_row, ws), raised) :=
                    match image_func df table_title with
                    | Raise e => ret ((current_row, ws), Some e)
                    | Ok figures =>
                        let figures := match figures with
                                       | FigureList l => l
                                       | OneFigure fig => [fig]
                                       end in
                        for_each_try figures
                          (λ '(current_row, ws) fig,
                             match fig with
                             | Some fig =>
                                 let! '(current_row, ws) :=
                                   add_image_from_figure rt ws fig current_row
                                     (ColStr "A") 600 400 in
                                 let current_row := current_row + 1 in
                                 ret (current_row, ws)
                             | None => ret (current_row, ws)
                             end)
                          (current_row, ws)
                    end in
                  match raised with
                  | Some e =>
                      do! print ("Warning: Failed to add images for "
                                 +:+ sheet_name +:+ "/" +:+ table_title
                                 +:+ ": " +:+ exn_str e) in
                      ret (current_row, ws)
                  | None => ret (current_row, ws)
                  end
              | None => ret (current_row, ws)
              end)
           (current_row, ws) in
       let! ws := set_widths (λ max_length, Z.min (max_length + 2) 50) ws in
       store pos ws)
    tt.

Definition generate_workbook (rt : Runtime) (output_path : string)
  (image_functions : option (gmap string Provider)) : M unit :=
  do! create_introduction_sheet in
  do! (if given image_functions
       then create_results_sheets_with_images rt image_functions
       else create_results_sheets) in
  do! save output_path in
  print ("Workbook successfully saved to " +:+ output_path).

(** * Derived definitions used to state the properties *)



Definition with_stdout (out : list string) (st : State) : State :=
  {| results := results st; intro_text := intro_text st; wb := wb st;
     global_table_counter := global_table_counter st; stdout := out;
     files := files st |}.

(** The number of data rows of a table. *)
Definition nrows (df : DataFrame) : Z := Z.of_nat (length (data df)).

(** The display name handed out at counter value [n]. *)
Definition table_name (n : Z) : string := "Table" +:+ pretty n.





(** Column [c] of the table is one the percentage rule applies to. *)
Definition is_rate_column (df : DataFrame) (c : Z) : bool :=
  (1 <=? c) &&
  match columns df !! Z.to_nat (c - 1) with
  | Some name => contains "Rate" name
  | None => false
  end.


(** The sheet's cells lie in rows 1 up to the last row written: what every
    sheet built through [cell] and [append] satisfies. *)
Definition sheet_ok (ws : Worksheet) : Prop :=
  0 <= current_row ws /\
  forall r c, is_Some (cells ws !! (r, c)) ->
              1 <= r <= current_row ws /\ 1 <= c.



(** A rectangular reference [A2:C5] from its corners. *)
Definition ref_of (min_col min_row max_col max_row : Z) : string :=
  column_letter min_col +:+ pretty min_row +:+ ":"
  +:+ column_letter max_col +:+ pretty max_row.

(** The column a string of letters stands for: A = 1, ..., Z = 26,
    AA = 27, ... *)
Definition letters_value (l : list ascii) : Z :=
  foldr (λ a acc, (Z.of_nat (nat_of_ascii a) - 64) + 26 * acc) 0 l.

Definition column_number (s : string) : Z :=
  letters_value (rev (list_ascii_of_string s)).

(** The longest [str] among the cells of column [c] that count, as the
    width loops compute it. *)
Definition column_max_length (ws : Worksheet) (c : Z) : Z :=
  max_length ((λ r, get_cell ws r c) <$> range 1 (max_row ws + 1)).

(** Every column of a sheet that has been written to has the width
    [adjusted_width] gives for its longest cell. *)
Definition widths_set (adjusted_width : Z -> Z) (ws : Worksheet) : Prop :=
  current_row ws <> 0 ->
  forall c, 1 <= c <= max_column ws ->
    column_dimensions ws !! column_letter c
    = Some (adjusted_width (column_max_length ws c)).




(** Everything of a sheet but its images. *)
Definition same_grid (ws ws' : Worksheet) : Prop :=
  cells ws' = cells ws /\ current_row ws' = current_row ws /\
  tables ws' = tables ws /\ title ws' = title ws /\
  column_dimensions ws' = column_dimensions ws.

(** The line printed when the images of a table fail. *)
Definition images_warning (sheet_name table_title : string) (e : exn)
  : string :=
  "Warning: Failed to add images for " +:+ sheet_name +:+ "/"
  +:+ table_title +:+ ": " +:+ exn_str e.

(** What [create_results_sheets_with_images] does after placing a table:
    the body of its loop from the test of [image_functions] on. *)
Definition image_step (rt : Runtime)
  (image_functions : option (gmap string Provider))
  (sheet_name table_title : string) (df : DataFrame)
  : Z * Worksheet -> M (Z * Worksheet) :=
  λ '(current_row, ws),
    match registered image_functions sheet_name with
    | Some image_func =>
        let! '((current_row, ws), raised) :=
          match image_func df table_title with
          | Raise e => ret ((current_row, ws), Some e)
          | Ok figures =>
              let figures := match figures with
                             | FigureList l => l
                             | OneFigure fig => [fig]
                             end in
              for_each_try figures
                (λ '(current_row, ws) fig,
                   match fig with
                   | Some fig =>
                       let! '(current_row, ws) :=
                         add_image_from_figure rt ws fig current_row
                           (ColStr "A") 600 400 in
                       let current_row := current_row + 1 in
                       ret (current_row, ws)
                   | None => ret (current_row, ws)
                   end)
                (current_row, ws)
          end in
        match raised with
        | Some e =>
            do! print ("Warning: Failed to add images for "
                       +:+ sheet_name +:+ "/" +:+ table_title
                       +:+ ": " +:+ exn_str e) in
            ret (current_row, ws)
        | None => ret (current_row, ws)
        end
    | None => ret (current_row, ws)
    end.

(** The shape both sheet builders share: a sheet per entry of [results],
    its tables placed one below the other, [after_table] run after each,
    and the widths set at the end. *)
Definition sheet_loop
  (after_table : string -> string -> DataFrame -> Z * Worksheet
                 -> M (Z * Worksheet))
  (adjusted_width : Z -> Z) : M unit :=
  let! results := get results in
  for_each results
    (λ _ '(sheet_name, queries_dict),
       let! '(pos, ws) := create_sheet sheet_name None in
       let current_row := 1 in
       let! '(current_row, ws) :=
         for_each queries_dict
           (λ '(current_row, ws) '(table_title, df),
              let! placed :=
                append_df_as_table ws df table_title current_row in
              after_table sheet_name table_title df placed)
           (current_row, ws) in
       let! ws := set_widths adjusted_width ws in
       store pos ws)
    tt.

(** The exception the placement of a figure ends with, if it does: one
    raised by [savefig] or by the image constructor, other than an
    [ImportError]. *)
Definition figure_raises (rt : Runtime) (fig : Figure) : option exn :=
  match savefig fig with
  | Raise (ImportError _) => None
  | Raise e => Some e
  | Ok png =>
      match make_image rt (FromBuffer png) with
      | Raise (ImportError _) => None
      | Raise e => Some e
      | Ok _ => None
      end
  end.


Definition figure_list (figs : Figures) : list (option Figure) :=
  match figs with
  | FigureList l => l
  | OneFigure fig => [fig]
  end.

(** The body of the loop over the figures of a table. *)
Definition figure_body (rt : Runtime)
  : Z * Worksheet -> option Figure -> M (Z * Worksheet) :=
  λ '(current_row, ws) fig,
    match fig with
    | Some fig =>
        let! '(current_row, ws) :=
          add_image_from_figure rt ws fig current_row (ColStr "A") 600 400 in
        let current_row := current_row + 1 in
        ret (current_row, ws)
    | None => ret (current_row, ws)
    end.




(** Table [df] titled [table_title] and named [name] stands on sheet [ws]
    with its title in row [r]: the title, the header and the data rows are
    the contents of rows [r], [r + 1] and [r + 2 ..], the cells of its Rate
    columns carry the percentage format, and the range registered under
    [name] spans the header and the data rows. *)
Definition placed (ws : Worksheet) (r : Z) (table_title : string)
  (df : DataFrame) (name : string) : Prop :=
  1 <= r /\ r + 1 + nrows df <= current_row ws /\
  value (get_cell ws r 1) = VStr table_title /\
  (forall j colname, columns df !! j = Some colname ->
     value (get_cell ws (r + 1) (Z.of_nat j + 1)) = VStr colname) /\
  (forall i row j v, data df !! i = Some row -> row !! j = Some v ->
     value (get_cell ws (r + 2 + Z.of_nat i) (Z.of_nat j + 1)) = v) /\
  (forall i c, 0 <= i < nrows df -> is_rate_column df c = true ->
     number_format (get_cell ws (r + 2 + i) c) = "0%") /\
  (exists t, t ∈ tables ws /\ displayName t = name /\
     ref t = ref_of 1 (r + 1) (shape1 df) (r + 1 + nrows df)).





(** Sheet [ws] is the finished sheet of the entry [sheet_name] of the
    results, built with the counter at [c]: its tables are named from
    [c] on in the order of the entry, each stands on the sheet, and the
    widths are set. *)
Definition sheet_built (adjusted_width : Z -> Z) (c : Z)
  (sheet_name : string) (entries : list (string * DataFrame))
  (ws : Worksheet) : Prop :=
  title ws = sheet_name /\ sheet_ok ws /\
  displayName <$> tables ws
  = table_name <$> seqZ c (Z.of_nat (length entries)) /\
  (forall i t df, entries !! i = Some (t, df) ->
     exists r, placed ws r t df (table_name (c + Z.of_nat i))) /\
  widths_set adjusted_width ws /\
  (entries <> [] -> current_row ws <> 0).

Fixpoint sheets_built (adjusted_width : Z -> Z) (c : Z)
  (rs : list (string * list (string * DataFrame)))
  (sheets : list Worksheet) : Prop :=
  match rs, sheets with
  | [], [] => True
  | (sheet_name, entries) :: rs', ws :: sheets' =>
      sheet_built adjusted_width c sheet_name entries ws /\
      sheets_built adjusted_width (c + Z.of_nat (length entries)) rs' sheets'
  | _, _ => False
  end.




(** The sheet [create_introduction_sheet] builds from the intro lines. *)
Definition introduction_sheet (lines : list string) : Worksheet :=
  set_width
    (foldl (λ ws line, append ws [VStr line])
       (update_cell
          (append (new_worksheet "Introduction") [VStr "Introduction"])
          1 1 VNone (set_font {| bold := true; sz := 14 |}))
       lines)
    "A" 100.






(** ** Sample inputs *)

Definition sample_runtime : Runtime :=
  {| image_support := true; path_exists := λ _, false;
     decodable := λ _, true |}.

Definition no_imaging : Runtime :=
  {| image_support := false; path_exists := λ p, String.eqb p "chart.png";
     decodable := λ _, true |}.

Definition py_float (repr : string) : Value :=
  VFloat {| float_repr := repr; float_is_zero := false |}.

(** The tables of the repository's tests. *)
Definition category_data : DataFrame :=
  {| columns := ["Category"; "Values"; "Rate"];
     data := [[VStr "A"; VInt 10; py_float "0.1"];
              [VStr "B"; VInt 20; py_float "0.2"];
              [VStr "C"; VInt 30; py_float "0.3"]] |}.

Definition sales_data : DataFrame :=
  {| columns := ["Month"; "Sales"];
     data := [[VStr "Jan"; VInt 100]; [VStr "Feb"; VInt 150];
              [VStr "Mar"; VInt 200]] |}.

Definition empty_table : DataFrame := {| columns := ["A"; "B"]; data := [] |}.





(** A table whose second column has an empty name and holds only the
    integer 0. *)
Definition zeros_table : DataFrame :=
  {| columns := ["Key"; ""];
     data := [[VStr "a"; VInt 0]; [VStr "b"; VInt 0]] |}.

(** Providers: one that raises, one whose third figure cannot be saved. *)
Definition failing_provider : Provider :=
  λ _ _, Raise (ValueError "Test error").

Definition good_figure : Figure := {| savefig := Ok "png" |}.
Definition bad_figure : Figure := {| savefig := Raise (Exception "boom") |}.

Definition mixed_provider : Provider :=
  λ _ _, Ok (FigureList [Some good_figure; None; Some bad_figure;
                         Some good_figure]).

Definition failing_results : list (string * list (string * DataFrame)) :=
  [("S1", [("T1", category_data); ("T2", sales_data)]);
   ("S2", [("U1", category_data)])].

Definition failing_providers : option (gmap string Provider) :=
  Some {["S1" := failing_provider; "S2" := mixed_provider]}.




(** The introduction sheet of the repository's tests: a title and three
    lines. *)
Definition test_introduction : Worksheet :=
  introduction_sheet ["Test Report"; "This is a test report.";
                      "Generated automatically."].

(** The input of the end-to-end scenario: one sheet, one table of three
    rows. *)
Definition scenario_results : list (string * list (string * DataFrame)) :=
  [("Analysis", [("Category Data", category_data)])].

Definition no_columns : DataFrame := {| columns := []; data := [] |}.

(** What a run returned, seen through [f]. *)
Definition returned {A B} (f : A -> B) (o : Outcome A) : Outcome B :=
  match o with
  | Ok a => Ok (f a)
  | Raise e => Raise e
  end.

(** ** Tactics for the sample inputs *)







(** * Further derived definitions *)


(** The row the title of table [j] of an entry goes to when the first one
    goes to [row]: every table before it takes its rows and three more. *)
Fixpoint title_row (entries : list (string * DataFrame)) (row : Z) (j : nat)
  : Z :=
  match j, entries with
  | S j', (_, df) :: rest => title_row rest (row + nrows df + 3) j'
  | _, _ => row
  end.




(** The image the loop over the figures of a table places for the buffer
    [png] at [row]: in column A, 600 by 400. *)
Definition image_at (png : string) (row : Z) : Image :=
  {| img_source := FromBuffer png; img_width := 600; img_height := 400;
     anchor := "A" +:+ pretty row |}.

(** The images of the buffers [pngs], the first at [row], each 29 rows
    below the one before it. *)
Fixpoint images_from (pngs : list string) (row : Z) : list Image :=
  match pngs with
  | [] => []
  | png :: rest => image_at png row :: images_from rest (row + 29)
  end.

(** The figures of a list, [None] left out. *)
Definition figures_given (figs : list (option Figure)) : list Figure :=
  omap id figs.

(** Figure [fig] can be placed by runtime [rt]: it saves into the buffer
    [png], which the imaging library decodes. *)
Definition saves_as (rt : Runtime) (fig : Figure) (png : string) : Prop :=
  savefig fig = Ok png /\ make_image rt (FromBuffer png) = Ok (FromBuffer png).

(** The line [add_image_from_figure] prints when imaging is missing. *)
Definition no_imaging_warning : string :=
  "Warning: Image embedding requires matplotlib. Skipping image.".


(** What no method but [generate_workbook] changes, and how the rest may
    move: the files, the results and the intro text are the same, the
    counter of the tables is not lower, and the output has only grown. *)
Definition world_le (st st' : State) : Prop :=
  files st' = files st /\ results st' = results st /\
  intro_text st' = intro_text st /\
  global_table_counter st <= global_table_counter st' /\
  stdout st `prefix_of` stdout st'.

(** [m] keeps to [world_le] from every state, whether it returns or
    raises. *)
Definition keeps_world {A} (m : M A) : Prop :=
  forall st, world_le st (m st).2.

(** ** Further sample inputs *)

(** A provider whose figures can all be placed, with a [None] among
    them. *)
Definition good_provider : Provider :=
  λ _ _, Ok (FigureList [Some good_figure; None; Some good_figure]).

Definition good_providers : option (gmap string Provider) :=
  Some {["Analysis" := good_provider]}.


(** * Properties *)

(** ** The monad *)

Lemma bind_ret {A B} (a : A) (k : A -> M B) st : bind (ret a) k st = k a st.
Proof. reflexivity. Qed.



Lemma for_each_cons {A S} (x : A) xs (body : S -> A -> M S) acc st :
  for_each (x :: xs) body acc st = bind (body acc x) (for_each xs body) st.
Proof. reflexivity. Qed.



(** ** Sheets: what the primitives keep and change *)








Lemma get_column_letter_ok k :
  1 <= k <= MAX_COLUMN -> get_column_letter k = Ok (column_letter k).
Proof.
  intros [H1 H2]. unfold get_column_letter.
  destruct (Z.leb_spec 1 k); [|lia].
  destruct (Z.leb_spec k MAX_COLUMN); [|lia]. reflexivity.
Qed.

Lemma get_column_letter_raises k :
  k < 1 \/ MAX_COLUMN < k ->
  get_column_letter k = Raise (ValueError ("Invalid column index " +:+ pretty k)).
Proof.
  intros H. unfold get_column_letter.
  destruct (Z.leb_spec 1 k); destruct (Z.leb_spec k MAX_COLUMN);
    simpl; try reflexivity; lia.
Qed.



(** ** append_df_as_table: the run *)




(** ** append_df_as_table: the cells *)













(** ** append_df_as_table: the rest of the sheet *)












(** ** C3: the row returned by append_df_as_table *)


(** ** C4: the percentage format of Rate columns *)





(** ** Column letters *)

Lemma letters_value_snoc l a :
  letters_value (l ++ [a]) =
  letters_value l + 26 ^ Z.of_nat (length l) * (Z.of_nat (nat_of_ascii a) - 64).
Proof.
  induction l as [|b l IH]; simpl.
  - lia.
  - unfold letters_value in *. simpl. rewrite IH.
    replace (Z.of_nat (S (length l))) with (Z.succ (Z.of_nat (length l))) by lia.
    rewrite Z.pow_succ_r by lia. lia.
Qed.

Lemma column_letters_value fuel k acc :
  0 <= k -> (Z.to_nat k <= fuel)%nat ->
  letters_value (column_letters fuel k acc) =
  letters_value acc + 26 ^ Z.of_nat (length acc) * k.
Proof.
  revert k acc. induction fuel as [|fuel IH]; intros k acc Hk Hfuel; simpl.
  - assert (k = 0) as -> by lia. lia.
  - destruct (Z.ltb_spec 0 k) as [Hpos|Hle]; [|assert (k = 0) as -> by lia; lia].
    pose proof (Z.div_mod k 26 ltac:(lia)) as Hdm.
    pose proof (Z.mod_pos_bound k 26 ltac:(lia)) as Hmod.
    destruct (Z.eqb_spec (k mod 26) 0) as [H0|Hn0].
    + rewrite IH; [|lia|lia].
      rewrite letters_value_snoc, length_app. simpl length.
      rewrite nat_ascii_embedding by (simpl; lia).
      replace (Z.of_nat (length acc + 1)) with (Z.succ (Z.of_nat (length acc)))
        by lia.
      rewrite Z.pow_succ_r by lia.
      replace (Z.of_nat (Z.to_nat (26 + 64)) - 64) with 26 by lia.
      nia.
    + rewrite IH; [|apply Z.div_pos; lia|].
      * rewrite letters_value_snoc, length_app. simpl length.
        rewrite nat_ascii_embedding by lia.
        replace (Z.of_nat (length acc + 1))
          with (Z.succ (Z.of_nat (length acc))) by lia.
        rewrite Z.pow_succ_r by lia.
        replace (Z.of_nat (Z.to_nat (k mod 26 + 64)) - 64) with (k mod 26)
          by lia.
        nia.
      * assert (k / 26 < k) by (apply Z.div_lt; lia). lia.
Qed.

(** Reading the letters of column [k] back gives [k]. *)
Lemma column_number_letter k : 0 <= k -> column_number (column_letter k) = k.
Proof.
  intros Hk. unfold column_number, column_letter.
  rewrite list_ascii_of_string_of_list_ascii, rev_involutive.
  rewrite column_letters_value by (simpl; lia).
  simpl. unfold letters_value. simpl. lia.
Qed.


(** ** The width loops *)

















(** ** Images *)

Lemma same_grid_refl ws : same_grid ws ws.
Proof. repeat split. Qed.

Lemma same_grid_trans ws1 ws2 ws3 :
  same_grid ws1 ws2 -> same_grid ws2 ws3 -> same_grid ws1 ws3.
Proof.
  intros (a & b & c & d & e) (a' & b' & c' & d' & e').
  repeat split; congruence.
Qed.

Lemma same_grid_add_image ws img : same_grid ws (add_image ws img).
Proof. repeat split. Qed.

Lemma with_stdout_nil st : with_stdout (stdout st ++ []) st = st.
Proof. destruct st. unfold with_stdout. simpl. now rewrite app_nil_r. Qed.

Lemma with_stdout_app st out1 out2 :
  with_stdout (stdout (with_stdout (stdout st ++ out1) st) ++ out2)
    (with_stdout (stdout st ++ out1) st)
  = with_stdout (stdout st ++ out1 ++ out2) st.
Proof. unfold with_stdout. simpl. now rewrite app_assoc. Qed.

(** The three ways [add_image_from_figure] ends when [start_col] is a
    letter: the image is placed, the placement degrades to a warning, or
    the exception of [figure_raises] propagates. *)
Lemma add_image_from_figure_cases rt ws fig start_row letter width height st :
  match figure_raises rt fig with
  | Some e =>
      add_image_from_figure rt ws fig start_row (ColStr letter) width height st
      = (Raise e, st)
  | None =>
      exists row' ws' out,
        add_image_from_figure rt ws fig start_row (ColStr letter) width height st
        = (Ok (row', ws'), with_stdout (stdout st ++ out) st) /\
        same_grid ws ws' /\
        (row' = start_row + rows_occupied height \/ row' = start_row + 1)
  end.
Proof.
  unfold figure_raises.
  destruct (savefig fig) as [png|e] eqn:E1.
  - destruct (make_image rt (FromBuffer png)) as [img|e] eqn:E2.
    + eexists _, _, []. rewrite with_stdout_nil.
      unfold add_image_from_figure, try_except_ImportError, bind, lift, ret.
      rewrite E1, E2.
      split; [reflexivity|]. split; [apply same_grid_add_image|now left].
    + destruct e;
        unfold add_image_from_figure, try_except_ImportError, bind, lift, ret;
        rewrite E1, E2; try reflexivity.
      eexists _, _, [_]. unfold print, with_stdout.
      split; [reflexivity|]. split; [apply same_grid_refl|now right].
  - destruct e;
      unfold add_image_from_figure, try_except_ImportError, bind, lift, ret;
      rewrite E1; try reflexivity.
    eexists _, _, [_]. unfold print, with_stdout.
    split; [reflexivity|]. split; [apply same_grid_refl|now right].
Qed.



(** ** The loop over the tables of a sheet *)





Lemma enumerate_upper {A} (l : list A) start i x :
  (i, x) ∈ enumerate l start -> i < start + Z.of_nat (length l).
Proof.
  revert start. induction l as [|y l IH]; intros start H; simpl in H.
  - inversion H.
  - apply elem_of_cons in H as [[= -> ->]|H]; [simpl; lia|].
    apply IH in H. simpl. lia.
Qed.














(** ** The loop over the sheets *)











Lemma bind_ext {A B} (m : M A) (k1 k2 : A -> M B) st :
  (forall a st', k1 a st' = k2 a st') -> bind m k1 st = bind m k2 st.
Proof. intros H. unfold bind. destruct (m st) as [[a|e] st']; auto. Qed.

Lemma bind_ret_r {A} (m : M A) st : bind m ret st = m st.
Proof. unfold bind, ret. now destruct (m st) as [[a|e] st']. Qed.

Lemma for_each_ext {A S} (xs : list A) (body1 body2 : S -> A -> M S) acc st :
  (forall a x st', body1 a x st' = body2 a x st') ->
  for_each xs body1 acc st = for_each xs body2 acc st.
Proof.
  intros H. revert acc st. induction xs as [|x xs IH]; intros acc st.
  - reflexivity.
  - rewrite !for_each_cons. rewrite (bind_ext _ _ (for_each xs body2)) by apply IH.
    unfold bind. now rewrite H.
Qed.

(** Both sheet builders are instances of the sheet loop. *)
Lemma create_results_sheets_loop st :
  create_results_sheets st
  = sheet_loop (λ _ _ _ placed, ret placed) (λ max_length, max_length + 2) st.
Proof.
  unfold create_results_sheets, sheet_loop.
  apply bind_ext. intros rs st1. apply for_each_ext.
  intros [] [sheet_name queries_dict] st2.
  apply bind_ext. intros [pos ws] st3. cbv zeta.
  unfold bind at 1 3.
  rewrite (for_each_ext queries_dict _
             (λ '(current_row, ws) '(table_title, df),
                let! placed :=
                  append_df_as_table ws df table_title current_row in
                ret placed)); [reflexivity|].
  intros [current_row ws0] [table_title df] st4.
  now rewrite bind_ret_r.
Qed.

Lemma create_results_sheets_with_images_loop rt image_functions st :
  create_results_sheets_with_images rt image_functions st
  = sheet_loop (image_step rt image_functions)
      (λ max_length, Z.min (max_length + 2) 50) st.
Proof. reflexivity. Qed.



(** ** The sheet builders: the run *)




(** ** The introduction sheet and generate_workbook *)





(** ** What a built document holds *)

Lemma sheets_built_length adjusted_width c rs sheets :
  sheets_built adjusted_width c rs sheets -> length sheets = length rs.
Proof.
  revert c sheets. induction rs as [|[name entries] rs IH];
    intros c [|ws sheets] H; simpl in H; try contradiction; [reflexivity|].
  destruct H as [_ H]. simpl. f_equal. eapply IH. eassumption.
Qed.








(** * Properties of the generator *)








(** C7. When image placement degrades softly - the imaging library is
    missing from the runtime when the figure or the file is to be turned
    into an image, saving the figure fails on a missing import, or the
    file-based routine is given a path that does not exist - the routine
    prints exactly one line, a warning, returns [start_row + 1] and hands
    the sheet back as it was: no image added, no cell changed. *)
Theorem soft_degrade_advances_one_row
  rt ws start_row start_col width height st :
  (forall fig png,
     image_support rt = false -> savefig fig = Ok png ->
     add_image_from_figure rt ws fig start_row start_col width height st
     = (Ok (start_row + 1, ws),
        with_stdout
          (stdout st
           ++ ["Warning: Image embedding requires matplotlib. Skipping image."])
          st)) /\
  (forall fig msg,
     savefig fig = Raise (ImportError msg) ->
     add_image_from_figure rt ws fig start_row start_col width height st
     = (Ok (start_row + 1, ws),
        with_stdout
          (stdout st
           ++ ["Warning: Image embedding requires matplotlib. Skipping image."])
          st)) /\
  (forall image_path,
     path_exists rt image_path = false ->
     add_image_from_file rt ws image_path start_row start_col width height st
     = (Ok (start_row + 1, ws),
        with_stdout
          (stdout st ++ ["Warning: Image file not found: " +:+ image_path])
          st)) /\
  (forall image_path,
     path_exists rt image_path = true -> image_support rt = false ->
     add_image_from_file rt ws image_path start_row start_col width height st
     = (Ok (start_row + 1, ws),
        with_stdout
          (stdout st
           ++ ["Warning: Image embedding not available. Skipping image."])
          st)).
Proof.
  split; [|split; [|split]].
  - intros fig png Hsupport Hfig.
    unfold add_image_from_figure, try_except_ImportError, bind, lift,
      make_image.
    rewrite Hfig, Hsupport. reflexivity.
  - intros fig msg Hfig.
    unfold add_image_from_figure, try_except_ImportError, bind, lift.
    rewrite Hfig. reflexivity.
  - intros image_path Hpath.
    unfold add_image_from_file, try_except_ImportError.
    rewrite Hpath. reflexivity.
  - intros image_path Hpath Hsupport.
    unfold add_image_from_file, try_except_ImportError, bind, lift,
      make_image.
    rewrite Hpath, Hsupport. reflexivity.
Qed.

(** C8. For every column position [k] (1..18278) and all [start_row],
    [width], [height]: placing an image with [start_col] the index [k] and
    placing it with [start_col] the letters of column [k] ("C" for 3) are
    the same run, for the figure routine and for the file routine alike;
    when the image is placed, its anchor is the letters of [k] followed by
    the row in both cases; and the letters of [k] read back give [k]. *)
Theorem column_index_and_letter_agree
  rt ws fig image_path start_row width height k st :
  1 <= k <= MAX_COLUMN ->
  add_image_from_figure rt ws fig start_row (ColInt k) width height st
  = add_image_from_figure rt ws fig start_row (ColStr (column_letter k))
      width height st /\
  add_image_from_file rt ws image_path start_row (ColInt k) width height st
  = add_image_from_file rt ws image_path start_row (ColStr (column_letter k))
      width height st /\
  (forall png src,
     savefig fig = Ok png -> make_image rt (FromBuffer png) = Ok src ->
     add_image_from_figure rt ws fig start_row (ColInt k) width height st
     = (Ok (start_row + rows_occupied height,
            add_image ws {| img_source := src; img_width := width;
                            img_height := height;
                            anchor := column_letter k +:+ pretty start_row |}),
        st)) /\
  (forall src,
     path_exists rt image_path = true ->
     make_image rt (FromPath image_path) = Ok src ->
     add_image_from_file rt ws image_path start_row (ColInt k) width height st
     = (Ok (start_row + rows_occupied height,
            add_image ws {| img_source := src; img_width := width;
                            img_height := height;
                            anchor := column_letter k +:+ pretty start_row |}),
        st)) /\
  get_column_letter k = Ok (column_letter k) /\
  column_number (column_letter k) = k /\
  column_letter 3 = "C".
Proof.
  intros Hk. pose proof (get_column_letter_ok k Hk) as Hletter.
  split; [|split; [|split; [|split; [|split; [|split]]]]].
  - unfold add_image_from_figure, try_except_ImportError, bind, lift, ret.
    rewrite Hletter. reflexivity.
  - unfold add_image_from_file, try_except_ImportError, bind, lift, ret.
    rewrite Hletter. reflexivity.
  - intros png src Hfig Himg.
    unfold add_image_from_figure, try_except_ImportError, bind, lift, ret.
    rewrite Hfig, Himg, Hletter. reflexivity.
  - intros src Hpath Himg.
    unfold add_image_from_file, try_except_ImportError, bind, lift, ret.
    rewrite Hpath, Himg, Hletter. reflexivity.
  - exact Hletter.
  - apply column_number_letter. lia.
  - reflexivity.
Qed.




(** * The properties at work on sample inputs *)







Lemma soft_degrade_advances_one_row_witness :
  image_support no_imaging = false /\ savefig good_figure = Ok "png" /\
  path_exists no_imaging "nonexistent.png" = false /\
  path_exists no_imaging "chart.png" = true /\
  add_image_from_figure no_imaging (introduction_sheet ["Test report"])
    good_figure 5 (ColStr "A") 600 400 (__init__ [] [] [] [])
  = (Ok (6, introduction_sheet ["Test report"]),
     with_stdout
       ["Warning: Image embedding requires matplotlib. Skipping image."]
       (__init__ [] [] [] [])) /\
  add_image_from_file no_imaging (introduction_sheet ["Test report"])
    "nonexistent.png" 3 (ColStr "A") 600 400 (__init__ [] [] [] [])
  = (Ok (4, introduction_sheet ["Test report"]),
     with_stdout ["Warning: Image file not found: nonexistent.png"]
       (__init__ [] [] [] [])) /\
  add_image_from_file no_imaging (introduction_sheet ["Test report"])
    "chart.png" 3 (ColStr "A") 600 400 (__init__ [] [] [] [])
  = (Ok (4, introduction_sheet ["Test report"]),
     with_stdout ["Warning: Image embedding not available. Skipping image."]
       (__init__ [] [] [] [])).
Proof.
  assert (image_support no_imaging = false) as Hsupport by reflexivity.
  assert (savefig good_figure = Ok "png") as Hfig by reflexivity.
  assert (path_exists no_imaging "nonexistent.png" = false) as Hmissing
    by reflexivity.
  assert (path_exists no_imaging "chart.png" = true) as Hthere by reflexivity.
  split; [exact Hsupport|]. split; [exact Hfig|]. split; [exact Hmissing|].
  split; [exact Hthere|].
  split; [|split].
  - exact (proj1 (soft_degrade_advances_one_row no_imaging
                    (introduction_sheet ["Test report"]) 5 (ColStr "A")
                    600 400 (__init__ [] [] [] []))
             good_figure "png" Hsupport Hfig).
  - exact (proj1 (proj2 (proj2 (soft_degrade_advances_one_row no_imaging
                    (introduction_sheet ["Test report"]) 3 (ColStr "A")
                    600 400 (__init__ [] [] [] []))))
             "nonexistent.png" Hmissing).
  - exact (proj2 (proj2 (proj2 (soft_degrade_advances_one_row no_imaging
                    (introduction_sheet ["Test report"]) 3 (ColStr "A")
                    600 400 (__init__ [] [] [] []))))
             "chart.png" Hthere Hsupport).
Defined.

Lemma column_index_and_letter_agree_witness :
  1 <= 3 <= MAX_COLUMN /\
  add_image_from_file sample_runtime (introduction_sheet []) "chart.png" 1
    (ColInt 3) 600 400 (__init__ [] [] [] [])
  = add_image_from_file sample_runtime (introduction_sheet []) "chart.png" 1
      (ColStr "C") 600 400 (__init__ [] [] [] []) /\
  add_image_from_figure sample_runtime (introduction_sheet []) good_figure 1
    (ColInt 3) 600 400 (__init__ [] [] [] [])
  = add_image_from_figure sample_runtime (introduction_sheet []) good_figure 1
      (ColStr "C") 600 400 (__init__ [] [] [] []) /\
  exists ws',
    add_image_from_figure sample_runtime (introduction_sheet []) good_figure 1
      (ColInt 3) 600 400 (__init__ [] [] [] [])
    = (Ok (29, ws'), __init__ [] [] [] []) /\
    anchor <$> images ws' = ["C1"].
Proof.
  assert (1 <= 3 <= MAX_COLUMN) as Hk by (unfold MAX_COLUMN; lia).
  split; [exact Hk|].
  destruct (column_index_and_letter_agree sample_runtime (introduction_sheet [])
              good_figure "chart.png" 1 600 400 3 (__init__ [] [] [] []) Hk)
    as (Hfig & Hfile & Hplaced & _ & _ & _ & HC).
  rewrite HC in Hfig, Hfile.
  split; [exact Hfile|]. split; [exact Hfig|].
  eexists. split.
  - exact (Hplaced "png" (FromBuffer "png") eq_refl eq_refl).
  - vm_compute. reflexivity.
Defined.




(** * Runs on the sample inputs *)

Example get_column_letter_samples :
  (get_column_letter 1, get_column_letter 3, get_column_letter 26,
   get_column_letter 27, get_column_letter 702, get_column_letter 703,
   get_column_letter 18278)
  = (Ok "A", Ok "C", Ok "Z", Ok "AA", Ok "ZZ", Ok "AAA", Ok "ZZZ").
Proof. vm_compute. reflexivity. Qed.

Example get_column_letter_out_of_range :
  get_column_letter 0 = Raise (ValueError "Invalid column index 0") /\
  get_column_letter 18279 = Raise (ValueError "Invalid column index 18279").
Proof. split; vm_compute; reflexivity. Qed.

Example contains_samples :
  contains "Rate" "Rate" = true /\ contains "Rate" "Growth Rate" = true /\
  contains "Rate" "Rated" = true /\ contains "Rate" "rate" = false /\
  contains "Rate" "RATE" = false /\ contains "Rate" "Values" = false.
Proof. repeat split. Qed.

(** The end-to-end scenario: one sheet "Analysis" with the table "Category
    Data" of three rows and the columns Category, Values, Rate; one intro
    line. *)
Example end_to_end_scenario :
  let run := generate_workbook sample_runtime "report.xlsx" None
               (__init__ scenario_results ["Test Report"] [] []) in
  run.1 = Ok tt /\
  sheetnames (wb run.2) = ["Introduction"; "Analysis"] /\
  (files run.2).*1 = ["report.xlsx"] /\
  stdout run.2 = ["Workbook successfully saved to report.xlsx"] /\
  (λ ws, (get_cell ws 1 1, get_cell ws 2 1, column_dimensions ws !! "A"))
    <$> wb run.2 !! 0%nat
  = Some ({| value := VStr "Introduction"; number_format := "General";
             font := {| bold := true; sz := 14 |} |},
          {| value := VStr "Test Report"; number_format := "General";
             font := default_font |},
          Some 100) /\
  (λ ws, (value (get_cell ws 1 1), font (get_cell ws 1 1),
          value (get_cell ws 2 1), value (get_cell ws 3 3),
          number_format (get_cell ws 3 3), number_format (get_cell ws 2 3),
          (λ t, (displayName t, ref t)) <$> tables ws))
    <$> wb run.2 !! 1%nat
  = Some (VStr "Category Data", {| bold := true; sz := 12 |},
          VStr "Category", py_float "0.1", "0%", "General",
          [("Table1", "A2:C5")]).
Proof. vm_compute. repeat split. Qed.

(** A table without rows: the header alone, a range of one row. *)
Example header_only_table :
  let run := append_df_as_table (new_worksheet "Empty") empty_table
               "Empty Table" 1 (__init__ [] [] [] []) in
  returned
    (λ r, (r.1, (λ t, (displayName t, ref t)) <$> tables r.2,
           value (get_cell r.2 2 1), value (get_cell r.2 2 2),
           current_row r.2)) run.1
  = Ok (4, [("Table1", "A2:B2")], VStr "A", VStr "B", 2).
Proof. vm_compute. reflexivity. Qed.

(** A table without columns cannot be placed: the last column has no
    letter. *)
Example table_without_columns_raises :
  (append_df_as_table (new_worksheet "S") no_columns "T" 1
     (__init__ [] [] [] [])).1
  = Raise (ValueError "Invalid column index 0").
Proof. vm_compute. reflexivity. Qed.

(** Placed above the last row written, the title goes to [start_row] while
    the rows are appended below the last row; the row returned and the
    range registered still count from [start_row]. Here the sheet holds four
    rows and the table is placed at row 1. *)
Example rows_follow_the_last_row_written :
  let run := append_df_as_table test_introduction category_data
               "Test Table" 1 (__init__ [] [] [] []) in
  current_row test_introduction = 4 /\
  returned
    (λ r, (r.1, value (get_cell r.2 1 1), value (get_cell r.2 2 1),
           value (get_cell r.2 5 1), value (get_cell r.2 6 1),
           ref <$> tables r.2, number_format (get_cell r.2 3 3)))
    run.1
  = Ok (7, VStr "Test Table", VStr "Test Report", VStr "Category", VStr "A",
        ["A2:C5"], "0%").
Proof. vm_compute. split; reflexivity. Qed.

(** Placed at the next free row, as the generator does, the rows are where
    the range says. *)
Example rows_at_the_next_free_row :
  let run := append_df_as_table test_introduction category_data
               "Test Table" 5 (__init__ [] [] [] []) in
  returned
    (λ r, (r.1, value (get_cell r.2 5 1), value (get_cell r.2 6 1),
           value (get_cell r.2 7 1), ref <$> tables r.2,
           number_format (get_cell r.2 7 3), number_format (get_cell r.2 6 3)))
    run.1
  = Ok (11, VStr "Test Table", VStr "Category", VStr "A", ["A6:C9"],
        "0%", "General").
Proof. vm_compute. reflexivity. Qed.

(** Why a well-formed mapping keeps its keys apart from each other and from
    "Introduction": a title that is taken, even up to case, is numbered. *)
Example taken_titles_are_numbered :
  let run := generate_workbook sample_runtime "report.xlsx" None
               (__init__ [("Introduction", []); ("a", []); ("A", [])]
                  [] [] []) in
  run.1 = Ok tt /\
  sheetnames (wb run.2) = ["Introduction"; "Introduction1"; "a"; "A1"].
Proof. vm_compute. split; reflexivity. Qed.

(** A key that is not a valid title stops the run before anything is
    saved. *)
Example invalid_title_raises :
  let run := generate_workbook sample_runtime "report.xlsx" None
               (__init__ [("a/b", [])] [] [] []) in
  run.1 = Raise (ValueError "Invalid character / found in sheet title") /\
  files run.2 = [].
Proof. vm_compute. split; reflexivity. Qed.

(** A column of zeros under an empty name gets width 2 from either
    builder; the key column next to it is sized by its longest value. *)
Example column_of_zeros_has_width_2 :
  (λ ws, (column_dimensions ws !! "A", column_dimensions ws !! "B"))
    <$> wb (create_results_sheets
              (__init__ [("S", [("T", zeros_table)])] [] [] [])).2
  = [(Some 5, Some 2)] /\
  (λ ws, (column_dimensions ws !! "A", column_dimensions ws !! "B"))
    <$> wb (create_results_sheets_with_images sample_runtime None
              (__init__ [("S", [("T", zeros_table)])] [] [] [])).2
  = [(Some 5, Some 2)].
Proof. vm_compute. split; reflexivity. Qed.

(** The providers of the failing sample: every table is placed, the
    figures saved before the failing one are on the sheet, and the run
    prints one warning per table. *)
Example failing_providers_run :
  let run := create_results_sheets_with_images sample_runtime
               failing_providers (__init__ failing_results [] [] []) in
  run.1 = Ok tt /\
  stdout run.2
  = ["Warning: Failed to add images for S1/T1: Test error";
     "Warning: Failed to add images for S1/T2: Test error";
     "Warning: Failed to add images for S2/U1: boom"] /\
  (λ ws, (title ws, displayName <$> tables ws, anchor <$> images ws))
    <$> wb run.2
  = [("S1", ["Table1"; "Table2"], []); ("S2", ["Table3"], ["A7"])].
Proof. vm_compute. repeat split. Qed.

(** * Further properties of the generator *)

(** ** append_df_as_table: refusals and bookkeeping *)





(** ** The builders without images, written out *)



Lemma title_row_mono entries row j : row <= title_row entries row j.
Proof.
  revert row j. induction entries as [|[t df] entries IH]; intros row j.
  - destruct j; simpl; lia.
  - destruct j as [|j]; simpl; [lia|].
    specialize (IH (row + nrows df + 3) j). unfold nrows in *. lia.
Qed.











(** ** Sheets without a registered provider *)





(** ** Placing images *)

(** X6. What the image routines do not catch. An exception of [savefig] or
    of the image constructor that is not an [ImportError] leaves
    [add_image_from_figure] and [add_image_from_file] as it is, and so does
    the [ValueError] of a column index outside 1..18278 once the image could
    be made; no warning is printed. The checks come in the order of the
    code: a missing file or a missing imaging library is met before the
    column is looked at, and ends in a warning whatever the column. *)
Theorem image_errors_propagate rt ws start_row width height st :
  (forall fig e start_col,
     savefig fig = Raise e -> (forall msg, e <> ImportError msg) ->
     add_image_from_figure rt ws fig start_row start_col width height st
     = (Raise e, st)) /\
  (forall fig png e start_col,
     savefig fig = Ok png -> make_image rt (FromBuffer png) = Raise e ->
     (forall msg, e <> ImportError msg) ->
     add_image_from_figure rt ws fig start_row start_col width height st
     = (Raise e, st)) /\
  (forall fig png src k,
     savefig fig = Ok png -> make_image rt (FromBuffer png) = Ok src ->
     k < 1 \/ MAX_COLUMN < k ->
     add_image_from_figure rt ws fig start_row (ColInt k) width height st
     = (Raise (ValueError ("Invalid column index " +:+ pretty k)), st)) /\
  (forall image_path e start_col,
     path_exists rt image_path = true ->
     make_image rt (FromPath image_path) = Raise e ->
     (forall msg, e <> ImportError msg) ->
     add_image_from_file rt ws image_path start_row start_col width height st
     = (Raise e, st)) /\
  (forall image_path src k,
     path_exists rt image_path = true ->
     make_image rt (FromPath image_path) = Ok src ->
     k < 1 \/ MAX_COLUMN < k ->
     add_image_from_file rt ws image_path start_row (ColInt k) width height st
     = (Raise (ValueError ("Invalid column index " +:+ pretty k)), st)) /\
  (forall image_path k,
     path_exists rt image_path = false ->
     k < 1 \/ MAX_COLUMN < k ->
     add_image_from_file rt ws image_path start_row (ColInt k) width height st
     = (Ok (start_row + 1, ws),
        with_stdout
          (stdout st ++ ["Warning: Image file not found: " +:+ image_path])
          st)) /\
  (forall fig png k,
     savefig fig = Ok png -> image_support rt = false ->
     k < 1 \/ MAX_COLUMN < k ->
     add_image_from_figure rt ws fig start_row (ColInt k) width height st
     = (Ok (start_row + 1, ws),
        with_stdout (stdout st ++ [no_imaging_warning]) st)).
Proof.
  split; [|split; [|split; [|split; [|split; [|split]]]]].
  - intros fig e start_col Hfig Hne.
    unfold add_image_from_figure, try_except_ImportError, bind, lift.
    rewrite Hfig. destruct e; try reflexivity. now destruct (Hne msg).
  - intros fig png e start_col Hfig Himg Hne.
    unfold add_image_from_figure, try_except_ImportError, bind, lift.
    rewrite Hfig, Himg. destruct e; try reflexivity. now destruct (Hne msg).
  - intros fig png src k Hfig Himg Hk.
    unfold add_image_from_figure, try_except_ImportError, bind, lift.
    rewrite Hfig, Himg, (get_column_letter_raises k Hk). reflexivity.
  - intros image_path e start_col Hpath Himg Hne.
    unfold add_image_from_file, try_except_ImportError, bind, lift.
    rewrite Hpath, Himg. simpl negb. cbv iota.
    destruct e; try reflexivity. now destruct (Hne msg).
  - intros image_path src k Hpath Himg Hk.
    unfold add_image_from_file, try_except_ImportError, bind, lift.
    rewrite Hpath, Himg, (get_column_letter_raises k Hk). reflexivity.
  - intros image_path k Hpath _.
    unfold add_image_from_file, try_except_ImportError, bind, lift.
    rewrite Hpath. reflexivity.
  - intros fig png k Hfig Hsupport _.
    unfold add_image_from_figure, try_except_ImportError, bind, lift,
      make_image.
    rewrite Hfig, Hsupport. reflexivity.
Qed.

Lemma add_image_from_figure_placed rt ws fig png row st :
  saves_as rt fig png ->
  add_image_from_figure rt ws fig row (ColStr "A") 600 400 st
  = (Ok (row + 28, add_image ws (image_at png row)), st).
Proof.
  intros [Hfig Himg].
  unfold add_image_from_figure, try_except_ImportError, bind, lift, ret.
  rewrite Hfig, Himg. reflexivity.
Qed.

Lemma images_foldl_add_image imgs ws :
  images (foldl add_image ws imgs) = images ws ++ imgs /\
  same_grid ws (foldl add_image ws imgs).
Proof.
  revert ws. induction imgs as [|img imgs IH]; intros ws; simpl.
  - rewrite app_nil_r. split; [reflexivity|apply same_grid_refl].
  - destruct (IH (add_image ws img)) as [Hi Hg]. split.
    + rewrite Hi. simpl. now rewrite <- app_assoc.
    + eapply same_grid_trans; [apply same_grid_add_image|exact Hg].
Qed.

(** The figures that can be placed at the head of the list are placed one
    after the other before the loop goes on with the rest. *)
Lemma figures_prefix rt pre rest :
  forall pngs row ws st,
    Forall2 (saves_as rt) (figures_given pre) pngs ->
    for_each_try (pre ++ rest) (figure_body rt) (row, ws) st
    = for_each_try rest (figure_body rt)
        (row + 29 * Z.of_nat (length pngs),
         foldl add_image ws (images_from pngs row)) st.
Proof.
  induction pre as [|[fig|] pre IH]; intros pngs row ws st Hall.
  - inversion Hall; subst. simpl. now rewrite Z.add_0_r.
  - unfold figures_given in Hall. simpl in Hall.
    inversion Hall as [|? png ? pngs' Hfig Hall']; subst.
    change ((Some fig :: pre) ++ rest) with (Some fig :: (pre ++ rest)).
    cbn [for_each_try]. unfold figure_body at 1. unfold bind at 1.
    rewrite (add_image_from_figure_placed rt ws fig png row st Hfig).
    unfold ret at 1. cbv beta iota zeta.
    rewrite (IH pngs' (row + 28 + 1) (add_image ws (image_at png row)) st Hall').
    simpl images_from. simpl foldl.
    replace (row + 28 + 1) with (row + 29) by lia.
    replace (row + 29 * Z.of_nat (length (png :: pngs')))
      with (row + 29 + 29 * Z.of_nat (length pngs'))
      by (simpl length; lia).
    reflexivity.
  - unfold figures_given in Hall. simpl in Hall.
    change ((None :: pre) ++ rest) with (None :: (pre ++ rest)).
    cbn [for_each_try]. unfold figure_body at 1. unfold ret at 1.
    cbv beta iota. now apply IH.
Qed.

(** X7. When the provider of a sheet returns figures that can all be
    placed (a list, or one figure, which counts as a list of one), the step
    after a table places them in the order given, each 600 by 400 and
    anchored in column A, the first at the row below the table's blank row
    and each further one 29 rows below the one before; [None] entries are
    skipped without moving on. The cursor ends 29 rows per image further
    down, the cells, the tables and the widths of the sheet are untouched
    and nothing is printed. *)
Theorem figures_are_placed_29_rows_apart
  rt (image_functions : option (gmap string Provider)) sheet_name table_title
  df (image_func : Provider) figures pngs row ws st :
  registered image_functions sheet_name = Some image_func ->
  image_func df table_title = Ok figures ->
  Forall2 (saves_as rt) (figures_given (figure_list figures)) pngs ->
  exists ws',
    image_step rt image_functions sheet_name table_title df (row, ws) st
    = (Ok (row + 29 * Z.of_nat (length pngs), ws'), st) /\
    images ws' = images ws ++ images_from pngs row /\
    same_grid ws ws' /\
    (forall i png, pngs !! i = Some png ->
       images_from pngs row !! i = Some (image_at png (row + 29 * Z.of_nat i))).
Proof.
  intros Hreg Hcall Hall.
  exists (foldl add_image ws (images_from pngs row)).
  destruct (images_foldl_add_image (images_from pngs row) ws) as [Hi Hg].
  split; [|split; [exact Hi|split; [exact Hg|]]].
  - unfold image_step. rewrite Hreg, Hcall.
    fold (figure_list figures). fold (figure_body rt).
    unfold bind at 1.
    rewrite <- (app_nil_r (figure_list figures)).
    rewrite (figures_prefix rt _ [] pngs row ws st Hall).
    reflexivity.
  - clear. revert row. induction pngs as [|p pngs IH]; intros row i png H.
    + discriminate.
    + destruct i as [|i]; simpl in H |- *.
      * injection H as ->. now rewrite Z.add_0_r.
      * rewrite (IH (row + 29) i png H). do 2 f_equal. lia.
Qed.

(** X8. The loop over the figures of a table stops at the first figure
    whose placement raises: the figures before it keep their images, the
    cursor stays below the last image placed, the one warning naming the
    sheet, the table and the exception is printed, and the figures after it
    are never looked at, whatever they are. *)
Theorem figures_after_a_failure_are_dropped
  rt (image_functions : option (gmap string Provider)) sheet_name table_title
  df (image_func : Provider) figures pre bad rest e pngs row ws st :
  registered image_functions sheet_name = Some image_func ->
  image_func df table_title = Ok figures ->
  figure_list figures = pre ++ Some bad :: rest ->
  Forall2 (saves_as rt) (figures_given pre) pngs ->
  figure_raises rt bad = Some e ->
  exists ws',
    image_step rt image_functions sheet_name table_title df (row, ws) st
    = (Ok (row + 29 * Z.of_nat (length pngs), ws'),
       with_stdout
         (stdout st ++ [images_warning sheet_name table_title e]) st) /\
    images ws' = images ws ++ images_from pngs row /\
    same_grid ws ws'.
Proof.
  intros Hreg Hcall Hfigs Hall Hbad.
  exists (foldl add_image ws (images_from pngs row)).
  destruct (images_foldl_add_image (images_from pngs row) ws) as [Hi Hg].
  split; [|split; [exact Hi|exact Hg]].
  unfold image_step. rewrite Hreg, Hcall.
  fold (figure_list figures). fold (figure_body rt).
  unfold bind at 1. rewrite Hfigs.
  rewrite (figures_prefix rt pre (Some bad :: rest) pngs row ws st Hall).
  cbn [for_each_try]. unfold figure_body at 1. unfold bind at 1.
  pose proof (add_image_from_figure_cases rt
                (foldl add_image ws (images_from pngs row)) bad
                (row + 29 * Z.of_nat (length pngs)) "A" 600 400 st) as Hc.
  rewrite Hbad in Hc. rewrite Hc. reflexivity.
Qed.

Lemma figures_given_some fig figs :
  figures_given (Some fig :: figs) = fig :: figures_given figs.
Proof. reflexivity. Qed.

Lemma figures_given_none figs :
  figures_given (None :: figs) = figures_given figs.
Proof. reflexivity. Qed.

Lemma figures_without_imaging rt figs :
  image_support rt = false ->
  Forall (λ fig, exists png, savefig fig = Ok png) (figures_given figs) ->
  forall row ws st,
    for_each_try figs (figure_body rt) (row, ws) st
    = (Ok ((row + 2 * Z.of_nat (length (figures_given figs)), ws), None),
       with_stdout
         (stdout st
          ++ replicate (length (figures_given figs)) no_imaging_warning)
         st).
Proof.
  intros Hsupport. induction figs as [|[fig|] figs IH]; intros Hall row ws st.
  - simpl. unfold ret. rewrite Z.add_0_r, with_stdout_nil. reflexivity.
  - rewrite figures_given_some in Hall |- *.
    inversion Hall as [|? ? [png Hfig] Hall']; subst.
    cbn [for_each_try]. unfold figure_body at 1. unfold bind at 1.
    assert (add_image_from_figure rt ws fig row (ColStr "A") 600 400 st
            = (Ok (row + 1, ws),
               with_stdout (stdout st ++ [no_imaging_warning]) st)) as ->.
    { unfold add_image_from_figure, try_except_ImportError, bind, lift,
        make_image.
      rewrite Hfig, Hsupport. reflexivity. }
    unfold ret at 1. cbv beta iota zeta.
    rewrite (IH Hall'). rewrite with_stdout_app.
    replace (row + 1 + 1 + 2 * Z.of_nat (length (figures_given figs)))
      with (row + 2 * Z.of_nat (length (fig :: figures_given figs)))
      by (simpl length; lia).
    reflexivity.
  - rewrite figures_given_none in Hall |- *.
    cbn [for_each_try]. unfold figure_body at 1. unfold ret at 1.
    now apply IH.
Qed.

(** X9. Without the imaging library the step after a table places nothing:
    for every figure that is not [None] and saves into its buffer, the
    warning of [add_image_from_figure] is printed once and the cursor moves
    two rows down, one for the value returned and one for the loop's own
    step. The sheet is handed back as it was, and the warning of the step
    itself is not printed. *)
Theorem figures_without_imaging_cost_two_rows
  rt (image_functions : option (gmap string Provider)) sheet_name table_title
  df (image_func : Provider) figures row ws st :
  registered image_functions sheet_name = Some image_func ->
  image_func df table_title = Ok figures ->
  image_support rt = false ->
  Forall (λ fig, exists png, savefig fig = Ok png)
    (figures_given (figure_list figures)) ->
  let n := length (figures_given (figure_list figures)) in
  image_step rt image_functions sheet_name table_title df (row, ws) st
  = (Ok (row + 2 * Z.of_nat n, ws),
     with_stdout (stdout st ++ replicate n no_imaging_warning) st).
Proof.
  intros Hreg Hcall Hsupport Hall n. subst n.
  unfold image_step. rewrite Hreg, Hcall.
  fold (figure_list figures). fold (figure_body rt).
  unfold bind at 1.
  rewrite (figures_without_imaging rt _ Hsupport Hall row ws st).
  reflexivity.
Qed.

(** ** The introduction sheet *)




(** ** What the methods leave alone *)

Lemma world_le_refl st : world_le st st.
Proof. unfold world_le. split_and!; reflexivity || lia. Qed.

Lemma world_le_trans st1 st2 st3 :
  world_le st1 st2 -> world_le st2 st3 -> world_le st1 st3.
Proof.
  intros (a & b & c & d & e) (a' & b' & c' & d' & e').
  unfold world_le. split_and!; try congruence; try lia.
  now transitivity (stdout st2).
Qed.

Lemma keeps_ret {A} (x : A) : keeps_world (ret x).
Proof. intros st. apply world_le_refl. Qed.

Lemma keeps_lift {A} (o : Outcome A) : keeps_world (lift o).
Proof. intros st. apply world_le_refl. Qed.

Lemma keeps_get {A} (f : State -> A) : keeps_world (get f).
Proof. intros st. apply world_le_refl. Qed.

Lemma keeps_set_wb w : keeps_world (set_wb w).
Proof. intros st. unfold world_le. simpl. split_and!; reflexivity || lia. Qed.

Lemma keeps_print line : keeps_world (print line).
Proof.
  intros st. unfold world_le. simpl. split_and!; try reflexivity; try lia.
  now apply prefix_app_r.
Qed.

Lemma keeps_bind {A B} (m : M A) (k : A -> M B) :
  keeps_world m -> (forall x, keeps_world (k x)) -> keeps_world (bind m k).
Proof.
  intros Hm Hk st. unfold bind. specialize (Hm st).
  destruct (m st) as [[x|e] st1]; simpl in *.
  - eapply world_le_trans; [exact Hm|apply Hk].
  - exact Hm.
Qed.

Lemma keeps_for_each {A S} (xs : list A) (body : S -> A -> M S) :
  (forall acc x, keeps_world (body acc x)) ->
  forall acc, keeps_world (for_each xs body acc).
Proof.
  intros Hbody. induction xs as [|x xs IH]; intros acc.
  - apply keeps_ret.
  - cbn [for_each]. apply keeps_bind; [apply Hbody|apply IH].
Qed.

Lemma keeps_for_each_try {A S} (xs : list A) (body : S -> A -> M S) :
  (forall acc x, keeps_world (body acc x)) ->
  forall acc, keeps_world (for_each_try xs body acc).
Proof.
  intros Hbody. induction xs as [|x xs IH]; intros acc st.
  - apply world_le_refl.
  - cbn [for_each_try]. pose proof (Hbody acc x st) as H.
    destruct (body acc x st) as [[acc'|e] st1]; simpl in *.
    + eapply world_le_trans; [exact H|apply IH].
    + exact H.
Qed.

Lemma keeps_try_except_ImportError {A} (m h : M A) :
  keeps_world m -> keeps_world h -> keeps_world (try_except_ImportError m h).
Proof.
  intros Hm Hh st. unfold try_except_ImportError. specialize (Hm st).
  destruct (m st) as [[x|[msg|msg|msg]] st1]; simpl in *; try exact Hm.
  eapply world_le_trans; [exact Hm|apply Hh].
Qed.

Lemma keeps_create_sheet t index : keeps_world (create_sheet t index).
Proof.
  unfold create_sheet.
  apply keeps_bind; [apply keeps_get|intros w].
  apply keeps_bind; [apply keeps_lift|intros t'].
  apply keeps_bind; [apply keeps_set_wb|intros _]. apply keeps_ret.
Qed.

Lemma keeps_store pos ws : keeps_world (store pos ws).
Proof.
  unfold store. apply keeps_bind; [apply keeps_get|intros w].
  apply keeps_set_wb.
Qed.

Lemma keeps_set_widths adjusted_width ws :
  keeps_world (set_widths adjusted_width ws).
Proof.
  unfold set_widths. apply keeps_for_each. intros acc [column col].
  apply keeps_bind; [apply keeps_lift|intros letter]. apply keeps_ret.
Qed.

Lemma keeps_create_introduction_sheet : keeps_world create_introduction_sheet.
Proof.
  unfold create_introduction_sheet.
  apply keeps_bind; [apply keeps_create_sheet|intros [pos ws]].
  apply keeps_bind; [apply keeps_lift|intros ws1].
  apply keeps_bind; [apply keeps_get|intros lines].
  apply keeps_store.
Qed.

Lemma keeps_append_df_as_table ws df table_title start_row :
  keeps_world (append_df_as_table ws df table_title start_row).
Proof.
  unfold append_df_as_table.
  apply keeps_bind; [apply keeps_lift|intros ws1]. cbv zeta.
  apply keeps_bind; [apply keeps_lift|intros first_letter].
  apply keeps_bind; [apply keeps_lift|intros last_letter].
  intros st. unfold bind at 1. unfold get at 1. cbv beta iota.
  unfold bind at 1. unfold set_global_table_counter at 1. cbv beta iota.
  set (c := global_table_counter st).
  match goal with
  | |- world_le _ (?m ?st1).2 =>
      apply (world_le_trans st st1);
        [unfold world_le; simpl; split_and!; reflexivity || lia|];
      assert (keeps_world m) as Hk; [|exact (Hk st1)]
  end.
  clearbody c. clear st.
  apply keeps_bind; [|intros ws2; apply keeps_ret].
  apply keeps_for_each. intros acc [col_idx col_name].
  case_bool_decide; [|apply keeps_ret].
  apply keeps_for_each. intros acc' row_idx. apply keeps_lift.
Qed.

Lemma keeps_add_image_from_figure rt ws fig start_row start_col width height :
  keeps_world
    (add_image_from_figure rt ws fig start_row start_col width height).
Proof.
  unfold add_image_from_figure. apply keeps_try_except_ImportError.
  - apply keeps_bind; [apply keeps_lift|intros img_buffer].
    apply keeps_bind; [apply keeps_lift|intros img].
    apply keeps_bind; [|intros anchor_cell; apply keeps_ret].
    destruct start_col; [apply keeps_ret|].
    apply keeps_bind; [apply keeps_lift|intros letter; apply keeps_ret].
  - apply keeps_bind; [apply keeps_print|intros _; apply keeps_ret].
Qed.

Lemma keeps_add_image_from_file
  rt ws image_path start_row start_col width height :
  keeps_world
    (add_image_from_file rt ws image_path start_row start_col width height).
Proof.
  unfold add_image_from_file. apply keeps_try_except_ImportError.
  - destruct (negb (path_exists rt image_path)).
    + apply keeps_bind; [apply keeps_print|intros _; apply keeps_ret].
    + apply keeps_bind; [apply keeps_lift|intros img].
      apply keeps_bind; [|intros anchor_cell; apply keeps_ret].
      destruct start_col; [apply keeps_ret|].
      apply keeps_bind; [apply keeps_lift|intros letter; apply keeps_ret].
  - apply keeps_bind; [apply keeps_print|intros _; apply keeps_ret].
Qed.

Lemma keeps_image_step rt image_functions sheet_name table_title df p :
  keeps_world (image_step rt image_functions sheet_name table_title df p).
Proof.
  destruct p as [row ws]. unfold image_step.
  destruct (registered image_functions sheet_name) as [image_func|];
    [|apply keeps_ret].
  apply keeps_bind.
  - destruct (image_func df table_title) as [figures|e]; [|apply keeps_ret].
    apply keeps_for_each_try. intros [row' ws'] [fig|]; [|apply keeps_ret].
    apply keeps_bind; [apply keeps_add_image_from_figure|].
    intros [row'' ws'']. apply keeps_ret.
  - intros [[row' ws'] [e|]]; [|apply keeps_ret].
    apply keeps_bind; [apply keeps_print|intros _; apply keeps_ret].
Qed.

Lemma keeps_sheet_loop after_table adjusted_width :
  (forall sheet_name table_title df p,
     keeps_world (after_table sheet_name table_title df p)) ->
  keeps_world (sheet_loop after_table adjusted_width).
Proof.
  intros Hafter. unfold sheet_loop.
  apply keeps_bind; [apply keeps_get|intros rs].
  apply keeps_for_each. intros [] [sheet_name queries_dict].
  apply keeps_bind; [apply keeps_create_sheet|intros [pos ws]]. cbv zeta.
  apply keeps_bind.
  - apply keeps_for_each. intros [row ws'] [table_title df].
    apply keeps_bind; [apply keeps_append_df_as_table|intros placed].
    apply Hafter.
  - intros [row ws'].
    apply keeps_bind; [apply keeps_set_widths|intros ws''].
    apply keeps_store.
Qed.

Lemma keeps_create_results_sheets : keeps_world create_results_sheets.
Proof.
  intros st. rewrite create_results_sheets_loop.
  apply keeps_sheet_loop. intros. apply keeps_ret.
Qed.

Lemma keeps_create_results_sheets_with_images rt image_functions :
  keeps_world (create_results_sheets_with_images rt image_functions).
Proof.
  intros st. rewrite create_results_sheets_with_images_loop.
  apply keeps_sheet_loop. intros. apply keeps_image_step.
Qed.



(** X12. No method but [generate_workbook] writes a file, and none
    touches the results or the intro text; in each of them, whether it
    returns or raises, the counter of the tables does not go down and
    the lines printed before stay, in their order, at the head of the
    output. *)
Theorem methods_keep_the_world
  rt image_functions ws df table_title fig image_path start_row start_col
  width height :
  keeps_world create_introduction_sheet /\
  keeps_world (append_df_as_table ws df table_title start_row) /\
  keeps_world
    (add_image_from_figure rt ws fig start_row start_col width height) /\
  keeps_world
    (add_image_from_file rt ws image_path start_row start_col width height) /\
  keeps_world create_results_sheets /\
  keeps_world (create_results_sheets_with_images rt image_functions).
Proof.
  split; [apply keeps_create_introduction_sheet|].
  split; [apply keeps_append_df_as_table|].
  split; [apply keeps_add_image_from_figure|].
  split; [apply keeps_add_image_from_file|].
  split; [apply keeps_create_results_sheets|].
  apply keeps_create_results_sheets_with_images.
Qed.

(** ** Where the rows of a table go *)


(** ** A sheet name the workbook refuses *)




(** * The further properties at work on sample inputs *)







Lemma image_errors_propagate_witness :
  savefig bad_figure = Raise (Exception "boom") /\
  add_image_from_figure sample_runtime (new_worksheet "S") bad_figure 5
    (ColStr "A") 600 400 (__init__ [] [] [] [])
  = (Raise (Exception "boom"), __init__ [] [] [] []) /\
  savefig good_figure = Ok "png" /\
  make_image sample_runtime (FromBuffer "png") = Ok (FromBuffer "png") /\
  (0 < 1 \/ MAX_COLUMN < 0) /\
  add_image_from_figure sample_runtime (new_worksheet "S") good_figure 5
    (ColInt 0) 600 400 (__init__ [] [] [] [])
  = (Raise (ValueError "Invalid column index 0"), __init__ [] [] [] []).
Proof.
  assert (savefig bad_figure = Raise (Exception "boom")) as Hbad
    by reflexivity.
  assert (savefig good_figure = Ok "png") as Hgood by reflexivity.
  assert (make_image sample_runtime (FromBuffer "png")
          = Ok (FromBuffer "png")) as Himg by reflexivity.
  assert (0 < 1 \/ MAX_COLUMN < 0) as H0 by (left; lia).
  destruct (image_errors_propagate sample_runtime (new_worksheet "S") 5
              600 400 (__init__ [] [] [] []))
    as (Hsave & _ & Hcol & _).
  split; [exact Hbad|].
  split.
  { apply (Hsave bad_figure (Exception "boom") (ColStr "A") Hbad).
    intros msg. discriminate. }
  split; [exact Hgood|]. split; [exact Himg|]. split; [exact H0|].
  exact (Hcol good_figure "png" (FromBuffer "png") 0 Hgood Himg H0).
Defined.

Lemma figures_are_placed_29_rows_apart_witness :
  registered good_providers "Analysis" = Some good_provider /\
  Forall2 (saves_as sample_runtime)
    (figures_given [Some good_figure; None; Some good_figure])
    ["png"; "png"] /\
  exists ws',
    image_step sample_runtime good_providers "Analysis" "Category Data"
      category_data (7, new_worksheet "Analysis") (__init__ [] [] [] [])
    = (Ok (65, ws'), __init__ [] [] [] []) /\
    anchor <$> images ws' = ["A7"; "A36"].
Proof.
  assert (registered good_providers "Analysis" = Some good_provider) as Hreg
    by reflexivity.
  assert (Forall2 (saves_as sample_runtime)
            (figures_given [Some good_figure; None; Some good_figure])
            ["png"; "png"]) as Hall.
  { do 2 (constructor; [split; reflexivity|]). constructor. }
  split; [exact Hreg|]. split; [exact Hall|].
  destruct (figures_are_placed_29_rows_apart sample_runtime good_providers
              "Analysis" "Category Data" category_data good_provider
              (FigureList [Some good_figure; None; Some good_figure])
              ["png"; "png"] 7 (new_worksheet "Analysis")
              (__init__ [] [] [] []) Hreg eq_refl Hall)
    as (ws' & Hrun & Himgs & _).
  exists ws'. split; [exact Hrun|].
  rewrite Himgs. vm_compute. reflexivity.
Defined.

Lemma figures_after_a_failure_are_dropped_witness :
  registered failing_providers "S2" = Some mixed_provider /\
  Forall2 (saves_as sample_runtime)
    (figures_given [Some good_figure; None]) ["png"] /\
  figure_raises sample_runtime bad_figure = Some (Exception "boom") /\
  exists ws',
    image_step sample_runtime failing_providers "S2" "U1" category_data
      (7, new_worksheet "S2") (__init__ [] [] [] [])
    = (Ok (36, ws'),
       with_stdout ["Warning: Failed to add images for S2/U1: boom"]
         (__init__ [] [] [] [])) /\
    anchor <$> images ws' = ["A7"].
Proof.
  assert (registered failing_providers "S2" = Some mixed_provider) as Hreg
    by reflexivity.
  assert (Forall2 (saves_as sample_runtime)
            (figures_given [Some good_figure; None]) ["png"]) as Hall.
  { constructor; [split; reflexivity|]. constructor. }
  assert (figure_raises sample_runtime bad_figure = Some (Exception "boom"))
    as Hbad by reflexivity.
  split; [exact Hreg|]. split; [exact Hall|]. split; [exact Hbad|].
  destruct (figures_after_a_failure_are_dropped sample_runtime
              failing_providers "S2" "U1" category_data mixed_provider
              (FigureList [Some good_figure; None; Some bad_figure;
                           Some good_figure])
              [Some good_figure; None] bad_figure [Some good_figure]
              (Exception "boom") ["png"] 7 (new_worksheet "S2")
              (__init__ [] [] [] []) Hreg eq_refl eq_refl Hall Hbad)
    as (ws' & Hrun & Himgs & _).
  exists ws'. split; [exact Hrun|].
  rewrite Himgs. vm_compute. reflexivity.
Defined.

Lemma figures_without_imaging_cost_two_rows_witness :
  registered good_providers "Analysis" = Some good_provider /\
  image_support no_imaging = false /\
  Forall (λ fig, exists png, savefig fig = Ok png)
    (figures_given [Some good_figure; None; Some good_figure]) /\
  image_step no_imaging good_providers "Analysis" "Category Data"
    category_data (7, new_worksheet "Analysis") (__init__ [] [] [] [])
  = (Ok (11, new_worksheet "Analysis"),
     with_stdout [no_imaging_warning; no_imaging_warning]
       (__init__ [] [] [] [])).
Proof.
  assert (registered good_providers "Analysis" = Some good_provider) as Hreg
    by reflexivity.
  assert (image_support no_imaging = false) as Hsupport by reflexivity.
  assert (Forall (λ fig, exists png, savefig fig = Ok png)
            (figures_given [Some good_figure; None; Some good_figure]))
    as Hall.
  { repeat (apply Forall_cons_2; [exists "png"; reflexivity|]).
    apply Forall_nil_2. }
  split; [exact Hreg|]. split; [exact Hsupport|]. split; [exact Hall|].
  exact (figures_without_imaging_cost_two_rows no_imaging good_providers
           "Analysis" "Category Data" category_data good_provider
           (FigureList [Some good_figure; None; Some good_figure])
           7 (new_worksheet "Analysis") (__init__ [] [] [] [])
           Hreg eq_refl Hsupport Hall).
Defined.


